(** * Video-Clipper: a shallow embedding of [youtube_to_instagram.py]

    The module [youtube_to_instagram] defines one class,
    [YouTubeMarketingGenerator], whose methods download a video, ask a text
    model for a caption, cut a centred clip and write it out.  The methods
    are embedded as functions in a state-and-exception monad over a [world]
    (file system, logger records, calls made to the third-party libraries).
    The third-party libraries themselves (yt_dlp, transformers, moviepy) are
    an explicit [env] of oracles.

    Numbers: Python computes the clip times in binary floating point; here
    they are exact rationals ([Q]), so the arithmetic statements are about
    the formula, free of rounding. *)

From Stdlib Require Import QArith ZArith List String Ascii Lia Lqa.
From stdpp Require Import gmap strings.

Set Warnings "-register-all".

Local Open Scope string_scope.
Local Open Scope list_scope.

(** ** Text *)

Module Text.

(** A Python [str] whose characters the code inspects: its code points. *)
Definition text := list N.

(** An ASCII literal of the source as a [text]. *)
Definition lit (s : string) : text := List.map N_of_ascii (list_ascii_of_string s).

(** [str.isspace] on one code point (CPython's [_PyUnicode_IsWhitespace]). *)
Definition isspace (c : N) : bool :=
  ((9 <=? c) && (c <=? 13) || (28 <=? c) && (c <=? 32)
   || (c =? 133) || (c =? 160) || (c =? 5760)
   || (8192 <=? c) && (c <=? 8202)
   || (c =? 8232) || (c =? 8233) || (c =? 8239) || (c =? 8287)
   || (c =? 12288))%N.

Fixpoint lstrip (s : text) : text :=
  match s with
  | [] => []
  | c :: s' => if isspace c then lstrip s' else s
  end.

Definition rstrip (s : text) : text := rev (lstrip (rev s)).

(** [s.strip()] with no argument. *)
Definition strip (s : text) : text := rstrip (lstrip s).

(** Some character of [s] is not whitespace. *)
Definition has_visible (s : text) : bool := existsb (fun c => negb (isspace c)) s.

End Text.
Export Text.

(** ** Exceptions and results *)

(** A raised instance of a subclass of [Exception]: its class name and its
    [str()].  Everything the [except Exception] clauses of the module catch
    is of this kind. *)
Record exn := Exn { exn_class : string; exn_str : string }.

Inductive result (A : Type) : Type :=
| Ok (a : A)
| Raise (e : exn).
Arguments Ok {A} a.
Arguments Raise {A} e.

(** ** Python values returned by the text-generation pipeline *)

Inductive pyval :=
| PNone
| PInt (z : Z)
| PStr (s : text)
| PList (l : list pyval)
| PDict (d : list (text * pyval)).

Fixpoint text_eqb (a b : text) : bool :=
  match a, b with
  | [], [] => true
  | x :: a', y :: b' => (x =? y)%N && text_eqb a' b'
  | _, _ => false
  end.

Fixpoint dict_get (d : list (text * pyval)) (k : text) : option pyval :=
  match d with
  | [] => None
  | (k', v) :: d' => if text_eqb k' k then Some v else dict_get d' k
  end.

(** [v[0]] *)
Definition subscript_0 (v : pyval) : result pyval :=
  match v with
  | PList (x :: _) => Ok x
  | PList [] => Raise (Exn "IndexError" "list index out of range")
  | PStr (c :: _) => Ok (PStr [c])
  | PStr [] => Raise (Exn "IndexError" "string index out of range")
  | PDict _ => Raise (Exn "KeyError" "0")
  | PNone => Raise (Exn "TypeError" "'NoneType' object is not subscriptable")
  | PInt _ => Raise (Exn "TypeError" "'int' object is not subscriptable")
  end.

(** [v['generated_text']] *)
Definition subscript_key (v : pyval) (k : text) : result pyval :=
  match v with
  | PDict d =>
      match dict_get d k with
      | Some x => Ok x
      | None => Raise (Exn "KeyError" "'generated_text'")
      end
  | PList _ => Raise (Exn "TypeError" "list indices must be integers or slices, not str")
  | PStr _ => Raise (Exn "TypeError" "string indices must be integers, not 'str'")
  | PNone => Raise (Exn "TypeError" "'NoneType' object is not subscriptable")
  | PInt _ => Raise (Exn "TypeError" "'int' object is not subscriptable")
  end.

(** [v.strip()] *)
Definition method_strip (v : pyval) : result text :=
  match v with
  | PStr s => Ok (strip s)
  | PNone => Raise (Exn "AttributeError" "'NoneType' object has no attribute 'strip'")
  | PInt _ => Raise (Exn "AttributeError" "'int' object has no attribute 'strip'")
  | PList _ => Raise (Exn "AttributeError" "'list' object has no attribute 'strip'")
  | PDict _ => Raise (Exn "AttributeError" "'dict' object has no attribute 'strip'")
  end.

(** ** The world the methods run in *)

(** A moviepy clip, as far as the module looks at it: [duration] is read by
    [export_instagram_video]; the source, the offset into it and the frame
    size identify what would be encoded. *)
Record clip := Clip {
  clip_source : string;
  clip_offset : Q;
  duration : Q;
  size : Z * Z
}.

(** What a regular file holds: media fetched from the network, or a clip
    encoded with some codecs and frame rate. *)
Inductive payload :=
| Downloaded (media : string)
| Encoded (c : clip) (codec audio_codec : string) (fps : Z).

(** A regular file: whether its writer finished it (so that a reader takes
    it for a valid media file), and what is in it. *)
Record file := File { complete : bool; content : payload }.

Inductive node :=
| NDir
| NFile (f : file).

Inductive level := INFO | WARNING | ERROR.

Record info_dict := InfoDict { info_ext : string; info_media : string }.

(** The calls into the third-party libraries, with their arguments. *)
Inductive call :=
| CallPipeline (task model : string)
| CallExtractInfo (url : string) (download : bool)
| CallPrepareFilename (info : info_dict)
| CallTextGenerator (prompt : text) (max_length num_return_sequences : Z)
| CallVideoFileClip (path : string)
| CallSubclipped (full : clip) (t0 t1 : Q)
| CallWriteVideofile (c : clip) (path codec audio_codec : string) (fps : Z).

(** What [main] prints: each [print] with the value it interpolates. *)
Inductive printed :=
| PrintInstagramVideo (path : string)
| PrintMarketingCaption (caption : text)
| PrintError (msg : string).

Record world := World {
  fs : gmap string node;
  log : list (level * string);
  calls : list call;
  stdout : list printed
}.

Definition set_fs (m : gmap string node) (w : world) : world :=
  World m (log w) (calls w) (stdout w).

(** ** State and exceptions *)

Definition M (A : Type) : Type := world -> result A * world.

Definition ret {A} (a : A) : M A := fun w => (Ok a, w).

Definition bind {A B} (m : M A) (k : A -> M B) : M B :=
  fun w => match m w with
           | (Ok a, w') => k a w'
           | (Raise e, w') => (Raise e, w')
           end.

Definition raise {A} (e : exn) : M A := fun w => (Raise e, w).

(** [try: body  except Exception as e: handler e] *)
Definition try_except {A} (body : M A) (handler : exn -> M A) : M A :=
  fun w => match body w with
           | (Ok a, w') => (Ok a, w')
           | (Raise e, w') => handler e w'
           end.

Definition lift {A} (r : result A) : M A := fun w => (r, w).

Declare Scope py_scope.
Delimit Scope py_scope with py.
Notation "x <- m ;; k" := (bind m (fun x => k))
  (at level 100, m at next level, right associativity) : py_scope.
Notation "m ;;; k" := (bind m (fun _ => k))
  (at level 100, right associativity) : py_scope.
Local Open Scope py_scope.

(** [self.logger.info / warning / error]. *)
Definition logger (lvl : level) (msg : string) : M unit :=
  fun w => (Ok tt, World (fs w) (log w ++ [(lvl, msg)]) (calls w) (stdout w)).

Definition print (p : printed) : M unit :=
  fun w => (Ok tt, World (fs w) (log w) (calls w) (stdout w ++ [p])).

Definition note (c : call) (w : world) : world :=
  World (fs w) (log w) (calls w ++ [c]) (stdout w).

(** A library call that reads the world. *)
Definition call_lib {A} (c : call) (f : world -> result A) : M A :=
  fun w => (f (note c w), note c w).

(** A library call that may also write files. *)
Definition call_lib_fs {A} (c : call)
    (f : world -> result A * gmap string node) : M A :=
  fun w => let '(r, m) := f (note c w) in (r, set_fs m (note c w)).

(** ** os *)

Fixpoint ends_with_sep (s : string) : bool :=
  match s with
  | EmptyString => false
  | String c EmptyString => Ascii.eqb c "/"
  | String _ s' => ends_with_sep s'
  end.

(** [os.path.join a b] (posixpath). *)
Definition os_path_join (a b : string) : string :=
  if String.prefix "/" b then b
  else if (String.length a =? 0)%nat || ends_with_sep a then a +:+ b
  else a +:+ "/" +:+ b.

(** [os.makedirs(p, exist_ok=True)] for a one-component path. *)
Definition os_makedirs (p : string) : M unit :=
  fun w => match fs w !! p with
           | None => (Ok tt, set_fs (<[p := NDir]> (fs w)) w)
           | Some NDir => (Ok tt, w)
           | Some (NFile _) =>
               (Raise (Exn "FileExistsError" ("[Errno 17] File exists: '" +:+ p +:+ "'")), w)
           end.

(** ** The third-party libraries *)

Record ydl_opts := YdlOpts {
  format : string;
  outtmpl : string;
  nooverwrites : bool;
  no_color : bool
}.

(** The callable that [transformers.pipeline] returns:
    [text_generator(prompt, max_length=.., num_return_sequences=..)]. *)
Definition text_generator_t : Type := text -> Z -> Z -> world -> result pyval.

Record env := Env {
  transformers_pipeline : string -> string -> world -> result text_generator_t;
  ydl_extract_info :
    ydl_opts -> string -> bool -> world -> result info_dict * gmap string node;
  ydl_prepare_filename : ydl_opts -> info_dict -> world -> result string;
  VideoFileClip : string -> world -> result clip;
  subclipped : clip -> Q -> Q -> world -> result clip;
  write_videofile :
    clip -> string -> string -> string -> Z -> world -> result unit * gmap string node
}.

(** ** class YouTubeMarketingGenerator *)

Record self_t := Self {
  clip_duration : Q;
  text_generator : text_generator_t
}.

Record pipeline_result := PipelineResult {
  video_path : string;
  caption : text
}.

(** [max(0, x)]: the first argument unless the second is greater. *)
Definition py_max0 (x : Q) : Q := if Qle_bool x 0 then 0%Q else x.

(** Lines 115-119 of [export_instagram_video]: the two times handed to
    [subclipped]. *)
Definition clip_window (total_duration clip_duration : Q) : Q * Q :=
  let start_time := py_max0 ((total_duration - clip_duration) / 2)%Q in
  (start_time, (start_time + clip_duration)%Q).

Definition fallback_caption : text := lit "Check out this amazing video!".

Section Generator.

Variable E : env.

Definition init (clip_duration : Q) : M self_t :=
  os_makedirs "downloads" ;;;
  tg <- try_except
          (call_lib (CallPipeline "text-generation" "gpt2")
                    (transformers_pipeline E "text-generation" "gpt2"))
          (fun e =>
             logger ERROR ("Failed to load text generation model: " +:+ exn_str e) ;;;
             raise e) ;;
  ret (Self clip_duration tg).

Definition download_youtube_video (self : self_t) (url : string) : M string :=
  let opts :=
    YdlOpts "bestvideo[ext=mp4]+bestaudio[ext=m4a]/best[ext=mp4]/best"
            (os_path_join "downloads" "source_video.%(ext)s")
            true true in
  try_except
    (info_dict <- call_lib_fs (CallExtractInfo url true)
                              (ydl_extract_info E opts url true) ;;
     video_path <- call_lib (CallPrepareFilename info_dict)
                            (ydl_prepare_filename E opts info_dict) ;;
     logger INFO ("Successfully downloaded video: " +:+ video_path) ;;;
     ret video_path)
    (fun e => logger ERROR ("Video download failed: " +:+ exn_str e) ;;; raise e).

Definition generate_marketing_caption (self : self_t) : M text :=
  try_except
    (let prompt := lit "Create a catchy marketing caption for a viral video" in
     out <- call_lib (CallTextGenerator prompt 100%Z 1%Z)
                     (text_generator self prompt 100%Z 1%Z) ;;
     first <- lift (subscript_0 out) ;;
     caption <- lift (subscript_key first (lit "generated_text")) ;;
     stripped <- lift (method_strip caption) ;;
     ret stripped)
    (fun e =>
       logger WARNING ("Caption generation failed: " +:+ exn_str e) ;;;
       ret fallback_caption).

Definition export_instagram_video (self : self_t) (video_path : string)
    (start_time : Q) : M string :=
  try_except
    (os_makedirs "downloads" ;;;
     full_clip <- call_lib (CallVideoFileClip video_path)
                           (VideoFileClip E video_path) ;;
     let total_duration := duration full_clip in
     let '(start_time, end_time) := clip_window total_duration (clip_duration self) in
     clip <- call_lib (CallSubclipped full_clip start_time end_time)
                      (subclipped E full_clip start_time end_time) ;;
     let clip_resized := clip in
     let output_path := os_path_join "downloads" "instagram_clip.mp4" in
     call_lib_fs (CallWriteVideofile clip_resized output_path "libx264" "aac" 30%Z)
                 (write_videofile E clip_resized output_path "libx264" "aac" 30%Z) ;;;
     ret output_path)
    (fun e => logger ERROR ("Video export failed: " +:+ exn_str e) ;;; raise e).

Definition process_video (self : self_t) (youtube_url : string) : M pipeline_result :=
  try_except
    (video_path <- download_youtube_video self youtube_url ;;
     caption <- generate_marketing_caption self ;;
     instagram_video <- export_instagram_video self video_path 0%Q ;;
     ret (PipelineResult instagram_video caption))
    (fun e => logger ERROR ("Video processing failed: " +:+ exn_str e) ;;; raise e).

Definition main : M unit :=
  let youtube_url := "https://youtu.be/TLKxdTmk-zc?si=vHXFEtw68Rg6ZR7X" in
  generator <- init 15%Q ;;
  try_except
    (result <- process_video generator youtube_url ;;
     print (PrintInstagramVideo (video_path result)) ;;;
     print (PrintMarketingCaption (caption result)))
    (fun e => print (PrintError (exn_str e))).

End Generator.

(** ** Observations on a run *)

(** The library calls made between world [w] and a later world [w']. *)
Definition new_calls (w w' : world) : list call :=
  drop (length (calls w)) (calls w').



Definition is_write (c : call) : bool :=
  match c with
  | CallWriteVideofile _ _ _ _ _ => true
  | _ => false
  end.

(** What the text generator answers when [generate_marketing_caption] calls
    it in world [w]. *)
Definition adapter_outcome (self : self_t) (w : world) : result pyval :=
  let prompt := lit "Create a catchy marketing caption for a viral video" in
  text_generator self prompt 100%Z 1%Z (note (CallTextGenerator prompt 100%Z 1%Z) w).

(** What [transformers.pipeline] answers when [__init__] calls it, the
    directory being there already or just made. *)
Definition load_outcome (E : env) (w : world) : result text_generator_t :=
  transformers_pipeline E "text-generation" "gpt2"
    (note (CallPipeline "text-generation" "gpt2") (snd (os_makedirs "downloads" w))).

(** The part of [export_instagram_video] before [write_videofile]: the clip
    opened and the clip cut from it. *)
Definition cut_clip (E : env) (self : self_t) (video_path : string) : M (clip * clip) :=
  os_makedirs "downloads" ;;;
  full_clip <- call_lib (CallVideoFileClip video_path) (VideoFileClip E video_path) ;;
  let '(start_time, end_time) := clip_window (duration full_clip) (clip_duration self) in
  clip <- call_lib (CallSubclipped full_clip start_time end_time)
                   (subclipped E full_clip start_time end_time) ;;
  ret (full_clip, clip).

(** ** Reference behaviour of the libraries

    The libraries when nothing goes wrong, as their documentation describes
    them.  The network ([net]), the loaded model ([gen]) and the decoder's
    view of a media ([probe]: duration and frame size) stay parameters. *)

Module Reference.

(** The [%(ext)s] field of an output template, filled in. *)
Fixpoint fill_ext (tmpl ext : string) : string :=
  match tmpl with
  | EmptyString => EmptyString
  | String c t =>
      if String.prefix "%(ext)s" tmpl
      then ext +:+ String.substring 6 (String.length t - 6) t
      else String c (fill_ext t ext)
  end.

(** [YoutubeDL.prepare_filename]. *)
Definition prepare_filename (opts : ydl_opts) (info : info_dict) (w : world)
  : result string :=
  Ok (fill_ext (outtmpl opts) (info_ext info)).

(** [YoutubeDL.extract_info]: with [nooverwrites] set, a file that is
    already at the target name is kept and nothing is downloaded. *)
Definition extract_info (net : string -> world -> result info_dict)
    (opts : ydl_opts) (url : string) (download : bool) (w : world)
  : result info_dict * gmap string node :=
  match net url w with
  | Raise e => (Raise e, fs w)
  | Ok info =>
      let target := fill_ext (outtmpl opts) (info_ext info) in
      let fetched := NFile (File true (Downloaded (info_media info))) in
      if negb download then (Ok info, fs w)
      else match fs w !! target with
           | Some _ =>
               if nooverwrites opts then (Ok info, fs w)
               else (Ok info, <[target := fetched]> (fs w))
           | None => (Ok info, <[target := fetched]> (fs w))
           end
  end.

(** [VideoFileClip(path)]: a finished media file opens as a clip. *)
Definition open_clip (probe : string -> Q * (Z * Z)) (path : string) (w : world)
  : result clip :=
  match fs w !! path with
  | Some (NFile (File true (Downloaded media))) =>
      Ok (Clip media 0 (fst (probe media)) (snd (probe media)))
  | Some (NFile (File true (Encoded c _ _ _))) => Ok c
  | Some (NFile (File false _)) =>
      Raise (Exn "OSError" ("MoviePy error: failed to read the duration of file " +:+ path))
  | Some NDir | None =>
      Raise (Exn "OSError" ("MoviePy error: the file " +:+ path +:+ " could not be found!"))
  end.

(** [Clip.subclipped(start_time, end_time)]: negative times count from the
    end; a start at or after the end of the clip is refused. *)
Definition subclip (c : clip) (start_time end_time : Q) (w : world) : result clip :=
  let start_time := if Qle_bool 0 start_time then start_time else (duration c + start_time)%Q in
  if Qle_bool (duration c) start_time
  then Raise (Exn "ValueError" "start_time should be smaller than the clip's duration")
  else
    let end_time := if Qle_bool 0 end_time then end_time else (duration c + end_time)%Q in
    Ok (Clip (clip_source c) (clip_offset c + start_time)%Q (end_time - start_time)%Q (size c)).

(** [Clip.write_videofile]: the encoded clip replaces whatever is at the
    path. *)
Definition write_clip (c : clip) (path codec audio_codec : string) (fps : Z) (w : world)
  : result unit * gmap string node :=
  (Ok tt, <[path := NFile (File true (Encoded c codec audio_codec fps))]> (fs w)).

Definition reference_env (net : string -> world -> result info_dict)
    (gen : text_generator_t) (probe : string -> Q * (Z * Z)) : env :=
  Env (fun _ _ _ => Ok gen)
      (extract_info net) prepare_filename
      (open_clip probe) subclip write_clip.

End Reference.
Export Reference.

(** ** Concrete runs *)

Module Demo.

Definition w0 : world := World ∅ [] [] [].

Definition url : string := "https://youtu.be/TLKxdTmk-zc?si=vHXFEtw68Rg6ZR7X".

(** A network that serves one mp4. *)
Definition net (u : string) (w : world) : result info_dict :=
  Ok (InfoDict "mp4" "talk").

(** A network whose answer changes once a fetch has been made. *)
Definition net_changing (u : string) (w : world) : result info_dict :=
  match List.filter (fun c => match c with CallExtractInfo _ _ => true | _ => false end)
                    (calls w) with
  | [_] => Ok (InfoDict "mp4" "first upload")
  | _ => Ok (InfoDict "mp4" "second upload")
  end.

Definition net_down (u : string) (w : world) : result info_dict :=
  Raise (Exn "DownloadError" "Unable to download webpage").

(** A model that continues the prompt. *)
Definition gen (prompt : text) (max_length n : Z) (w : world) : result pyval :=
  Ok (PList [PDict [(lit "generated_text", PStr (prompt ++ lit ": Watch now!  "))]]).

(** A model that answers with blanks only. *)
Definition gen_blank (prompt : text) (max_length n : Z) (w : world) : result pyval :=
  Ok (PList [PDict [(lit "generated_text", PStr (lit "   "))]]).

Definition gen_failing (prompt : text) (max_length n : Z) (w : world) : result pyval :=
  Raise (Exn "RuntimeError" "CUDA out of memory").

(** A 40 second and a 10 second source, 1920x1080. *)
Definition probe40 (media : string) : Q * (Z * Z) := (40%Q, (1920%Z, 1080%Z)).
Definition probe10 (media : string) : Q * (Z * Z) := (10%Q, (1920%Z, 1080%Z)).

Definition env40 : env := reference_env net gen probe40.
Definition env10 : env := reference_env net gen probe10.
Definition env_changing : env := reference_env net_changing gen probe40.
Definition env_net_down : env := reference_env net_down gen probe40.

Definition load_error : exn := Exn "OSError" "Can't load the model for 'gpt2'".

(** The model cannot be loaded. *)
Definition env_no_model : env :=
  Env (fun _ _ _ => Raise load_error)
      (extract_info net) prepare_filename (open_clip probe40) subclip write_clip.

Definition write_error : exn := Exn "OSError" "[Errno 28] No space left on device".

(** The writer starts the file, then fails. *)
Definition write_clip_failing (c : clip) (path codec audio_codec : string) (fps : Z)
    (w : world) : result unit * gmap string node :=
  (Raise write_error, <[path := NFile (File false (Encoded c codec audio_codec fps))]> (fs w)).

Definition env_disk_full : env :=
  Env (fun _ _ _ => Ok gen)
      (extract_info net) prepare_filename (open_clip probe40) subclip write_clip_failing.

Definition self15 : self_t := Self 15 gen.
Definition self_blank : self_t := Self 15 gen_blank.
Definition self_failing : self_t := Self 15 gen_failing.

Definition source_path : string := "downloads/source_video.mp4".
Definition output_path : string := "downloads/instagram_clip.mp4".

(** The world after one complete run from the empty one. *)
Definition w_after_run : world := snd (process_video env40 self15 url w0).

End Demo.

(** ** Shapes of text *)

(** All characters of [s] are whitespace. *)
Definition blank (s : text) : bool := forallb isspace s.

(** [c] neither starts nor ends with a whitespace character. *)
Definition trimmed (c : text) : bool :=
  match c with [] => true | x :: _ => negb (isspace x) end &&
  match rev c with [] => true | y :: _ => negb (isspace y) end.

(** * Properties *)

(** ** Text *)

Lemma lstrip_visible (s : text) : has_visible (lstrip s) = has_visible s.
Proof.
  induction s as [|c s IH]; simpl; [reflexivity|].
  destruct (isspace c) eqn:Hc; simpl.
  - exact IH.
  - rewrite Hc. reflexivity.
Qed.

Lemma lstrip_nil_iff (s : text) : lstrip s = [] <-> has_visible s = false.
Proof.
  induction s as [|c s IH]; simpl.
  - split; reflexivity.
  - destruct (isspace c); simpl.
    + exact IH.
    + split; discriminate.
Qed.

Lemma has_visible_rev (s : text) : has_visible (rev s) = has_visible s.
Proof.
  unfold has_visible. induction s as [|c s IH]; simpl; [reflexivity|].
  rewrite existsb_app, IH. simpl.
  rewrite orb_false_r. apply orb_comm.
Qed.

Lemma strip_nil_iff (s : text) : strip s = [] <-> has_visible s = false.
Proof.
  unfold strip, rstrip.
  rewrite <- (lstrip_visible s), <- (has_visible_rev (lstrip s)), <- lstrip_nil_iff.
  split; intros H.
  - apply (f_equal (@rev N)) in H. rewrite rev_involutive in H. exact H.
  - rewrite H. reflexivity.
Qed.

(** ** The clip window *)

Section Window.

Local Open Scope Q_scope.

Lemma py_max0_cases (x : Q) :
  (x <= 0 /\ py_max0 x = 0%Q) \/ (0 < x /\ py_max0 x = x).
Proof.
  unfold py_max0. destruct (Qle_bool x 0) eqn:H.
  - left. split; [apply Qle_bool_iff; exact H | reflexivity].
  - right. split; [|reflexivity].
    apply Qnot_le_lt. intros Hle. apply Qle_bool_iff in Hle. congruence.
Qed.

Lemma half_unfold (x : Q) : x / 2 == x * (1 # 2).
Proof. unfold Qdiv. reflexivity. Qed.

(** Name the centred start [h] and keep its defining equation for [lra]. *)
Ltac name_half t d h :=
  pose proof (half_unfold (t - d)) as ?Hh;
  remember ((t - d) / 2) as h.

Lemma clip_window_short_source (total_duration desired : Q) :
  0 <= total_duration -> total_duration < desired ->
  fst (clip_window total_duration desired) = 0%Q /\
  snd (clip_window total_duration desired) == desired /\
  total_duration < snd (clip_window total_duration desired).
Proof.
  intros H0 Hlt. unfold clip_window. simpl.
  name_half total_duration desired h.
  destruct (py_max0_cases h) as [[Hx ->]|[Hx ->]].
  - split; [reflexivity|]. split; lra.
  - exfalso. lra.
Qed.



End Window.

(** ** Caption generation *)

Section Caption.

Variable self : self_t.
Variable w : world.

Local Abbreviation w1 :=
  (note (CallTextGenerator (lit "Create a catchy marketing caption for a viral video")
                           100%Z 1%Z) w).

Lemma generate_total :
  exists c, fst (generate_marketing_caption self w) = Ok c.
Proof.
  unfold generate_marketing_caption, try_except.
  match goal with |- context [match ?b with _ => _ end] => destruct b as [[c|e] w'] end.
  - exists c. reflexivity.
  - exists fallback_caption. reflexivity.
Qed.

Lemma generate_on_error (e : exn) :
  adapter_outcome self w = Raise e ->
  generate_marketing_caption self w =
    (Ok fallback_caption,
     snd (logger WARNING ("Caption generation failed: " +:+ exn_str e) w1)).
Proof.
  unfold adapter_outcome, generate_marketing_caption, try_except, bind, call_lib.
  intros ->. reflexivity.
Qed.

Lemma generate_on_text (d : list (text * pyval)) (rest : list pyval) (s : text) :
  adapter_outcome self w = Ok (PList (PDict d :: rest)) ->
  dict_get d (lit "generated_text") = Some (PStr s) ->
  generate_marketing_caption self w = (Ok (strip s), w1).
Proof.
  unfold adapter_outcome, generate_marketing_caption, try_except, bind, call_lib, lift.
  intros -> Hd. cbn [subscript_0 subscript_key]. rewrite Hd. reflexivity.
Qed.

(** The answers of the adapter that carry no text at the place the code
    looks for it. *)
Lemma generate_on_malformed (v : pyval) :
  adapter_outcome self w = Ok v ->
  (forall d rest s, v = PList (PDict d :: rest) ->
                    dict_get d (lit "generated_text") = Some (PStr s) -> False) ->
  fst (generate_marketing_caption self w) = Ok fallback_caption.
Proof.
  unfold adapter_outcome, generate_marketing_caption, try_except, bind, call_lib, lift.
  intros -> Hno.
  destruct v as [| z | s | l | d]; try reflexivity.
  - destruct s; reflexivity.
  - destruct l as [|x l]; [reflexivity|].
    destruct x as [| z | s | l' | d]; try reflexivity.
    cbn [subscript_0 subscript_key].
    destruct (dict_get d (lit "generated_text")) as [x|] eqn:Hd; [|reflexivity].
    destruct x; try reflexivity.
    exfalso. eapply Hno; [reflexivity | exact Hd].
Qed.

End Caption.

Lemma adapter_text_cases (v : pyval) :
  (exists d rest s, v = PList (PDict d :: rest) /\
                    dict_get d (lit "generated_text") = Some (PStr s)) \/
  (forall d rest s, v = PList (PDict d :: rest) ->
                    dict_get d (lit "generated_text") = Some (PStr s) -> False).
Proof.
  destruct v as [| z | s | [|[| z | s | l' | d] l] | d];
    try (right; intros d0 rest s0 H; discriminate H).
  destruct (dict_get d (lit "generated_text")) as [[| z | s | l' | d']|] eqn:Hd;
    try (right; intros d0 rest s0 H Hs; injection H as <- <-; congruence).
  left. exists d, l, s. split; [reflexivity | exact Hd].
Qed.

Lemma fallback_caption_nonempty : fallback_caption <> [].
Proof. discriminate. Qed.

(** C3.  [generate_marketing_caption] always returns a caption and never
    raises.  When the text generator raises, or answers with a value that
    has no text at [[0]['generated_text']], the caption is exactly
    "Check out this amazing video!"; when it answers with a list whose first
    entry maps 'generated_text' to a string, the caption is that string
    stripped of leading and trailing whitespace. *)
Theorem caption_generator_never_fails (self : self_t) (w : world) :
  (exists c, fst (generate_marketing_caption self w) = Ok c) /\
  (forall e, adapter_outcome self w = Raise e ->
     fst (generate_marketing_caption self w) = Ok (lit "Check out this amazing video!")) /\
  (forall v, adapter_outcome self w = Ok v ->
     (forall d rest s, v = PList (PDict d :: rest) ->
                       dict_get d (lit "generated_text") = Some (PStr s) -> False) ->
     fst (generate_marketing_caption self w) = Ok (lit "Check out this amazing video!")) /\
  (forall d rest s,
     adapter_outcome self w = Ok (PList (PDict d :: rest)) ->
     dict_get d (lit "generated_text") = Some (PStr s) ->
     fst (generate_marketing_caption self w) = Ok (strip s)).
Proof.
  split; [apply generate_total|].
  split; [intros e He; rewrite (generate_on_error self w e He); reflexivity|].
  split; [intros v Hv Hno; exact (generate_on_malformed self w v Hv Hno)|].
  intros d rest s Hv Hd. rewrite (generate_on_text self w d rest s Hv Hd). reflexivity.
Qed.

Lemma caption_generator_never_fails_witness :
  fst (generate_marketing_caption Demo.self_failing Demo.w0)
    = Ok (lit "Check out this amazing video!") /\
  fst (generate_marketing_caption Demo.self15 Demo.w0)
    = Ok (lit "Create a catchy marketing caption for a viral video: Watch now!").
Proof.
  split.
  - apply (proj1 (proj2 (caption_generator_never_fails Demo.self_failing Demo.w0))
             (Exn "RuntimeError" "CUDA out of memory")).
    reflexivity.
  - apply (proj2 (proj2 (proj2 (caption_generator_never_fails Demo.self15 Demo.w0)))
             [(lit "generated_text",
               PStr (lit "Create a catchy marketing caption for a viral video: Watch now!  "))]
             []
             (lit "Create a catchy marketing caption for a viral video: Watch now!  "));
      reflexivity.
Defined.

(** C8, as stated, fails: a text generator that answers with blanks makes
    [generate_marketing_caption] return the empty string. *)
Lemma blank_text_gives_empty_caption :
  adapter_outcome Demo.self_blank Demo.w0
    = Ok (PList [PDict [(lit "generated_text", PStr (lit "   "))]]) /\
  fst (generate_marketing_caption Demo.self_blank Demo.w0) = Ok [] /\
  ~ (forall (self : self_t) (w : world) (c : text),
        fst (generate_marketing_caption self w) = Ok c -> c <> []).
Proof.
  split; [reflexivity|]. split; [reflexivity|].
  intros H. apply (H Demo.self_blank Demo.w0 []); reflexivity.
Qed.

(** C8, amended.  The caption returned by [generate_marketing_caption] is
    empty exactly when the text generator answered with a generated text
    that is empty or all whitespace; for every other outcome of the text
    generator (an exception, a malformed answer, a text with a visible
    character) it is not empty. *)
Theorem caption_empty_iff_blank_text (self : self_t) (w : world) (c : text) :
  fst (generate_marketing_caption self w) = Ok c ->
  (c = [] <->
   exists d rest s,
     adapter_outcome self w = Ok (PList (PDict d :: rest)) /\
     dict_get d (lit "generated_text") = Some (PStr s) /\
     has_visible s = false).
Proof.
  intros Hc.
  destruct (adapter_outcome self w) as [v|e] eqn:Hv.
  - destruct (adapter_text_cases v) as [(d & rest & s & -> & Hd)|Hno].
    + rewrite (generate_on_text self w d rest s Hv Hd) in Hc. simpl in Hc.
      injection Hc as <-. rewrite strip_nil_iff. split.
      * intros Hs. exists d, rest, s. repeat split; assumption.
      * intros (d' & rest' & s' & Heq & Hd' & Hs').
        injection Heq as <- <-. rewrite Hd in Hd'. injection Hd' as <-. exact Hs'.
    + rewrite (generate_on_malformed self w v Hv Hno) in Hc. injection Hc as <-.
      split.
      * intros H. destruct (fallback_caption_nonempty H).
      * intros (d & rest & s & Heq & Hd & _).
        injection Heq as ->. destruct (Hno d rest s eq_refl Hd).
  - rewrite (generate_on_error self w e Hv) in Hc. simpl in Hc. injection Hc as <-.
    split.
    + intros H. destruct (fallback_caption_nonempty H).
    + intros (d & rest & s & Heq & _). discriminate Heq.
Qed.

Lemma caption_empty_iff_blank_text_witness :
  lit "Create a catchy marketing caption for a viral video: Watch now!" = [] <->
  exists d rest s,
    adapter_outcome Demo.self15 Demo.w0 = Ok (PList (PDict d :: rest)) /\
    dict_get d (lit "generated_text") = Some (PStr s) /\
    has_visible s = false.
Proof.
  apply (caption_empty_iff_blank_text Demo.self15 Demo.w0). reflexivity.
Defined.

(** ** The calls a method makes *)

Lemma new_calls_app (w w' : world) (l : list call) :
  calls w' = calls w ++ l -> new_calls w w' = l.
Proof.
  unfold new_calls. intros ->. apply drop_app_length.
Qed.

Lemma makedirs_calls (p : string) (w : world) :
  calls (snd (os_makedirs p w)) = calls w /\
  log (snd (os_makedirs p w)) = log w /\
  stdout (snd (os_makedirs p w)) = stdout w.
Proof.
  unfold os_makedirs. destruct (fs w !! p) as [[|f]|]; repeat split; reflexivity.
Qed.

(** The four ways [export_instagram_video] can go, each with the calls it
    made. *)
Lemma export_trace (E : env) (self : self_t) (vp : string) (st : Q) (w : world) :
  let r := export_instagram_video E self vp st w in
  (exists e, fst r = Raise e /\ calls (snd r) = calls w) \/
  (exists e, fst r = Raise e /\ calls (snd r) = calls w ++ [CallVideoFileClip vp]) \/
  (exists e full t0 t1,
      fst r = Raise e /\
      calls (snd r) = calls w ++ [CallVideoFileClip vp; CallSubclipped full t0 t1]) \/
  (exists full t0 t1 c w',
      subclipped E full t0 t1 w' = Ok c /\
      (fst r = Ok "downloads/instagram_clip.mp4" \/ exists e, fst r = Raise e) /\
      calls (snd r) =
        calls w ++ [CallVideoFileClip vp; CallSubclipped full t0 t1;
                    CallWriteVideofile c "downloads/instagram_clip.mp4" "libx264" "aac" 30%Z]).
Proof.
  unfold export_instagram_video, try_except, bind, call_lib, call_lib_fs, clip_window.
  destruct (makedirs_calls "downloads" w) as (Hc & _ & _).
  destruct (os_makedirs "downloads" w) as [[[]|e] w1]; simpl in Hc.
  2:{ left. exists e. split; [reflexivity | exact Hc]. }
  destruct (VideoFileClip E vp (note (CallVideoFileClip vp) w1)) as [full|e].
  2:{ right; left. exists e. split; [reflexivity|]. simpl. rewrite Hc. reflexivity. }
  match goal with
  | |- context [subclipped E full ?a ?b ?w'] =>
      destruct (subclipped E full a b w') as [c|e] eqn:Hsub
  end.
  2:{ right; right; left. eexists e, full, _, _. split; [reflexivity|].
      simpl. rewrite Hc, <- app_assoc. reflexivity. }
  right; right; right. eexists full, _, _, c, _. split; [exact Hsub|].
  match goal with
  | |- context [write_videofile E ?c ?p ?v ?a ?f ?w'] =>
      destruct (write_videofile E c p v a f w') as [[[]|e] m]
  end.
  - split; [left; reflexivity|]. simpl. rewrite Hc, <- !app_assoc. reflexivity.
  - split; [right; exists e; reflexivity|]. simpl. rewrite Hc, <- !app_assoc. reflexivity.
Qed.

Lemma download_trace (E : env) (self : self_t) (url : string) (w : world) :
  let r := download_youtube_video E self url w in
  (exists e, fst r = Raise e /\ calls (snd r) = calls w ++ [CallExtractInfo url true]) \/
  (exists info,
      calls (snd r) = calls w ++ [CallExtractInfo url true; CallPrepareFilename info]).
Proof.
  unfold download_youtube_video, try_except, bind, call_lib, call_lib_fs.
  match goal with
  | |- context [ydl_extract_info E ?o ?u ?d ?w'] =>
      destruct (ydl_extract_info E o u d w') as [[info|e] m]
  end.
  2:{ left. exists e. split; reflexivity. }
  right. exists info.
  match goal with
  | |- context [ydl_prepare_filename E ?o ?i ?w'] =>
      destruct (ydl_prepare_filename E o i w') as [p|e]
  end; simpl; rewrite <- app_assoc; reflexivity.
Qed.

Lemma generate_trace (self : self_t) (w : world) :
  calls (snd (generate_marketing_caption self w)) =
    calls w ++ [CallTextGenerator
                  (lit "Create a catchy marketing caption for a viral video") 100%Z 1%Z]
  /\ fs (snd (generate_marketing_caption self w)) = fs w.
Proof.
  unfold generate_marketing_caption, try_except, bind, call_lib, lift.
  destruct (text_generator self _ _ _ _) as [v|e]; [|split; reflexivity].
  destruct (subscript_0 v) as [x|e]; [|split; reflexivity].
  destruct (subscript_key x _) as [y|e]; [|split; reflexivity].
  destruct (method_strip y) as [z|e]; split; reflexivity.
Qed.


(** ** The orchestrator *)



(** ** The transcoder *)

Lemma export_after_cut (E : env) (self : self_t) (vp : string) (st : Q) (w : world)
    (full c : clip) (w3 : world) :
  cut_clip E self vp w = (Ok (full, c), w3) ->
  let out := "downloads/instagram_clip.mp4" in
  let w4 := note (CallWriteVideofile c out "libx264" "aac" 30%Z) w3 in
  export_instagram_video E self vp st w =
    match write_videofile E c out "libx264" "aac" 30%Z w4 with
    | (Ok _, m) => (Ok out, set_fs m w4)
    | (Raise e, m) =>
        (Raise e, snd (logger ERROR ("Video export failed: " +:+ exn_str e) (set_fs m w4)))
    end.
Proof.
  unfold cut_clip, export_instagram_video, try_except, bind, call_lib, call_lib_fs,
    clip_window, ret.
  destruct (os_makedirs "downloads" w) as [[[]|e] w1]; [|discriminate].
  destruct (VideoFileClip E vp _) as [full'|e]; [|discriminate].
  destruct (subclipped E full' _ _ _) as [c'|e]; [|discriminate].
  intros H. injection H as <- <- <-. cbv zeta.
  destruct (write_videofile E c' _ _ _ _ _) as [[[]|e] m]; reflexivity.
Qed.

(** C9.  The [start_time] argument of [export_instagram_video] has no
    effect: with any two values of it the method returns the same result and
    leaves the same world (files, log records, library calls with their
    arguments). *)
Theorem start_time_is_ignored (E : env) (self : self_t) (video_path : string)
    (start_time start_time' : Q) (w : world) :
  export_instagram_video E self video_path start_time w =
  export_instagram_video E self video_path start_time' w.
Proof. reflexivity. Qed.



Ltac find_in := repeat first [left; reflexivity | right].

(** C1, where the code departs from it.  With the default 15 second clip
    and a 10 second source the window starts at 0 and ends at 15: the run
    asks [subclipped] for the times 0 to 15 of a clip whose duration is 10,
    the end not clamped to the duration. *)
Theorem short_source_window_past_end :
  let full := Clip "talk" 0 10 (1920%Z, 1080%Z) in
  let run := process_video Demo.env10 Demo.self15 Demo.url Demo.w0 in
  clip_window (duration full) (clip_duration Demo.self15) = (0%Q, 15%Q) /\
  In (CallVideoFileClip "downloads/source_video.mp4") (calls (snd run)) /\
  VideoFileClip Demo.env10 "downloads/source_video.mp4" (snd run) = Ok full /\
  In (CallSubclipped full 0 15) (calls (snd run)) /\
  ~ (snd (clip_window (duration full) (clip_duration Demo.self15)) <= duration full)%Q.
Proof.
  cbv zeta. split; [reflexivity|].
  split; [vm_compute; find_in|].
  split; [reflexivity|].
  split; [vm_compute; find_in|].
  vm_compute. intros H. apply H. reflexivity.
Qed.

(** C6, as stated, fails: a complete clip is at the output path; the next
    export's writer starts the file and then fails; the export raises, and
    the output path now holds the unfinished file. *)
Lemma failed_write_leaves_partial_file :
  let r := export_instagram_video Demo.env_disk_full Demo.self15
             "downloads/source_video.mp4" 0 Demo.w_after_run in
  (exists p, fs Demo.w_after_run !! "downloads/instagram_clip.mp4"
             = Some (NFile (File true p))) /\
  fst r = Raise Demo.write_error /\
  (exists p, fs (snd r) !! "downloads/instagram_clip.mp4"
             = Some (NFile (File false p))).
Proof.
  cbv zeta. split; [eexists; vm_compute; reflexivity|].
  split; [vm_compute; reflexivity|].
  eexists. vm_compute. reflexivity.
Qed.

(** C6, amended.  [export_instagram_video] gives the fixed output path
    itself to [write_videofile] and does nothing to the files afterwards:
    when the clip has been cut, the files after the export are exactly the
    files the writer left, whether it returned or raised.  If it returned,
    the export returns the fixed path; if it raised, the export logs the
    exception and raises it again. *)
Theorem export_leaves_what_writer_left (E : env) (self : self_t) (video_path : string)
    (start_time : Q) (w : world) (full c : clip) (w3 : world) :
  cut_clip E self video_path w = (Ok (full, c), w3) ->
  let out := "downloads/instagram_clip.mp4" in
  let w4 := note (CallWriteVideofile c out "libx264" "aac" 30%Z) w3 in
  let written := write_videofile E c out "libx264" "aac" 30%Z w4 in
  let r := export_instagram_video E self video_path start_time w in
  fs (snd r) = snd written /\
  (fst written = Ok tt -> fst r = Ok out /\ log (snd r) = log w3) /\
  (forall e, fst written = Raise e ->
     fst r = Raise e /\
     log (snd r) = log w3 ++ [(ERROR, "Video export failed: " +:+ exn_str e)]).
Proof.
  intros Hcut out w4 written r. subst r.
  rewrite (export_after_cut E self video_path start_time w full c w3 Hcut).
  cbv zeta. fold out. fold w4. fold written.
  destruct written as [[[]|e] m]; cbn [fst snd].
  - split; [reflexivity|]. split; [intros _; split; reflexivity|].
    intros e He. discriminate He.
  - split; [reflexivity|]. split; [intros He; discriminate He|].
    intros e' He. injection He as <-. split; reflexivity.
Qed.

Lemma export_leaves_what_writer_left_witness :
  let r := export_instagram_video Demo.env_disk_full Demo.self15
             "downloads/source_video.mp4" 0 Demo.w_after_run in
  fst r = Raise Demo.write_error /\
  log (snd r) = log Demo.w_after_run
                ++ [(ERROR, "Video export failed: [Errno 28] No space left on device")].
Proof.
  cbv zeta.
  destruct (export_leaves_what_writer_left Demo.env_disk_full Demo.self15
              "downloads/source_video.mp4" 0 Demo.w_after_run
              (Clip "talk" 0 40 (1920%Z, 1080%Z))
              (Clip "talk" (25 # 2) (60 # 4) (1920%Z, 1080%Z))
              (snd (cut_clip Demo.env_disk_full Demo.self15
                      "downloads/source_video.mp4" Demo.w_after_run)))
    as (_ & _ & Hfail).
  - vm_compute. reflexivity.
  - destruct (Hfail Demo.write_error) as [Hr Hl].
    + vm_compute. reflexivity.
    + split; [exact Hr|]. rewrite Hl. vm_compute. reflexivity.
Defined.

(** ** Construction *)

(** C5, as stated, fails: when the model cannot be loaded, [__init__]
    raises the load error, and so does [main]; the only library call made is
    the load, and nothing is printed: no caption, default or other. *)
Lemma load_failure_aborts :
  load_outcome Demo.env_no_model Demo.w0 = Raise Demo.load_error /\
  fst (init Demo.env_no_model 15 Demo.w0) = Raise Demo.load_error /\
  fst (main Demo.env_no_model Demo.w0) = Raise Demo.load_error /\
  calls (snd (main Demo.env_no_model Demo.w0)) = [CallPipeline "text-generation" "gpt2"] /\
  stdout (snd (main Demo.env_no_model Demo.w0)) = [].
Proof.
  repeat split; vm_compute; reflexivity.
Qed.

(** C5, amended.  A failure to load the text-generation model is logged at
    error level and raised again by [__init__]: no generator is built, and
    [main], which builds it outside its [try], raises the same exception
    without fetching, captioning, transcoding or printing. *)
Theorem model_load_failure_is_fatal (E : env) (clip_duration : Q) (w : world) (e : exn) :
  fst (os_makedirs "downloads" w) = Ok tt ->
  load_outcome E w = Raise e ->
  let w' :=
    World (fs (snd (os_makedirs "downloads" w)))
          (log w ++ [(ERROR, "Failed to load text generation model: " +:+ exn_str e)])
          (calls w ++ [CallPipeline "text-generation" "gpt2"])
          (stdout w) in
  init E clip_duration w = (Raise e, w') /\ main E w = (Raise e, w').
Proof.
  unfold load_outcome, main, init, try_except, bind, call_lib, logger, raise.
  destruct (makedirs_calls "downloads" w) as (Hc & Hl & Hs).
  destruct (os_makedirs "downloads" w) as [[[]|e0] w1]; cbn [fst snd] in *;
    [|discriminate].
  intros _ ->. cbn [fst snd log calls stdout fs note].
  rewrite Hc, Hl, Hs. split; reflexivity.
Qed.

Lemma model_load_failure_is_fatal_witness :
  fst (init Demo.env_no_model 15 Demo.w0) = Raise Demo.load_error /\
  fst (main Demo.env_no_model Demo.w0) = Raise Demo.load_error.
Proof.
  destruct (model_load_failure_is_fatal Demo.env_no_model 15 Demo.w0 Demo.load_error)
    as [Hi Hm].
  - reflexivity.
  - reflexivity.
  - rewrite Hi, Hm. split; reflexivity.
Defined.

(** ** Running twice *)

Lemma process_video_ok (E : env) (self : self_t) (url : string) (w : world)
    (r : pipeline_result) (w' : world) :
  process_video E self url w = (Ok r, w') ->
  exists vp w1 c w2 p,
    download_youtube_video E self url w = (Ok vp, w1) /\
    generate_marketing_caption self w1 = (Ok c, w2) /\
    export_instagram_video E self vp 0 w2 = (Ok p, w') /\
    r = PipelineResult p c.
Proof.
  unfold process_video, try_except, bind, ret, raise, logger.
  destruct (download_youtube_video E self url w) as [[vp|e] w1]; [|discriminate].
  destruct (generate_marketing_caption self w1) as [[c|e] w2] eqn:Hg; [|discriminate].
  destruct (export_instagram_video E self vp 0 w2) as [[p|e] w3] eqn:Hx; [|discriminate].
  intros H. injection H as <- <-.
  exists vp, w1, c, w2, p. repeat split; [exact Hg | exact Hx].
Qed.

Lemma makedirs_fs_other (p : string) (w : world) :
  p <> "downloads" ->
  fs (snd (os_makedirs "downloads" w)) !! p = fs w !! p.
Proof.
  intros Hp. unfold os_makedirs.
  destruct (fs w !! "downloads") as [[|f]|]; try reflexivity.
  cbn [snd set_fs fs]. apply lookup_insert_ne. congruence.
Qed.

Section Reference_runs.

Variable net : string -> world -> result info_dict.
Variable gen : text_generator_t.
Variable probe : string -> Q * (Z * Z).
Variable self : self_t.

Local Abbreviation E := (reference_env net gen probe).

(** The name the reference downloader stores a video under. *)
Lemma reference_download_name (url : string) (w : world) (vp : string) :
  fst (download_youtube_video E self url w) = Ok vp ->
  exists ext, vp = "downloads/source_video." +:+ (ext +:+ EmptyString).
Proof.
  unfold download_youtube_video, try_except, bind, call_lib, call_lib_fs, E,
    reference_env, ydl_extract_info, ydl_prepare_filename, extract_info, prepare_filename.
  destruct (net url _) as [info|e]; [|discriminate].
  cbn [negb nooverwrites outtmpl].
  intros H. exists (info_ext info).
  destruct (fs _ !! _) as [n|]; cbn in H; injection H as <-; reflexivity.
Qed.

(** With the target already there, the reference downloader leaves the
    files as they are. *)
Lemma reference_download_keeps (url : string) (w : world) (vp : string) :
  fst (download_youtube_video E self url w) = Ok vp ->
  is_Some (fs w !! vp) ->
  fs (snd (download_youtube_video E self url w)) = fs w.
Proof.
  unfold download_youtube_video, try_except, bind, call_lib, call_lib_fs, E,
    reference_env, ydl_extract_info, ydl_prepare_filename, extract_info, prepare_filename.
  destruct (net url _) as [info|e]; [|discriminate].
  cbn [negb nooverwrites outtmpl note fs].
  destruct (fs w !! _) as [n|] eqn:Hn.
  - intros _ _. reflexivity.
  - cbn [fst snd]. intros H [n Hn'].
    assert (Heq : fill_ext (os_path_join "downloads" "source_video.%(ext)s")
                           (info_ext info) = vp)
      by (injection H as H; exact H).
    rewrite Heq in Hn. congruence.
Qed.

Lemma reference_export_ok (vp : string) (st : Q) (w : world) (p : string) (w' : world) :
  export_instagram_video E self vp st w = (Ok p, w') ->
  p = "downloads/instagram_clip.mp4" /\
  exists c,
    fs w' = <["downloads/instagram_clip.mp4" :=
                NFile (File true (Encoded c "libx264" "aac" 30%Z))]>
              (fs (snd (os_makedirs "downloads" w))) /\
    In (CallWriteVideofile c "downloads/instagram_clip.mp4" "libx264" "aac" 30%Z)
       (new_calls w w').
Proof.
  unfold export_instagram_video, try_except, bind, call_lib, call_lib_fs, clip_window,
    E, reference_env, VideoFileClip, subclipped, write_videofile, write_clip, ret,
    raise, logger.
  destruct (makedirs_calls "downloads" w) as (Hc & _ & _).
  destruct (os_makedirs "downloads" w) as [[[]|e] w1]; [|discriminate].
  cbn [snd] in Hc |- *.
  destruct (open_clip probe vp _) as [full|e]; [|discriminate].
  destruct (subclip full _ _ _) as [c|e]; [|discriminate].
  intros H. injection H as <- <-. split; [reflexivity|].
  exists c. split; [reflexivity|].
  erewrite new_calls_app; [|cbn [calls note set_fs]; rewrite Hc, <- !app_assoc; reflexivity].
  find_in.
Qed.

End Reference_runs.

(** C10, as stated, fails for the downloaded source file: between two runs
    with the same URL the host starts to serve another upload; the second
    run's fetch resolves it, both runs return, and the file at the fixed
    source name still is the first run's download. *)
Lemma second_run_does_not_overwrite_download :
  let run1 := process_video Demo.env_changing Demo.self15 Demo.url Demo.w0 in
  let run2 := process_video Demo.env_changing Demo.self15 Demo.url (snd run1) in
  (exists r1, fst run1 = Ok r1) /\
  (exists r2, fst run2 = Ok r2) /\
  In (CallPrepareFilename (InfoDict "mp4" "second upload"))
     (new_calls (snd run1) (snd run2)) /\
  fs (snd run1) !! "downloads/source_video.mp4"
    = Some (NFile (File true (Downloaded "first upload"))) /\
  fs (snd run2) !! "downloads/source_video.mp4"
    = Some (NFile (File true (Downloaded "first upload"))).
Proof.
  cbv zeta.
  split; [eexists; vm_compute; reflexivity|].
  split; [eexists; vm_compute; reflexivity|].
  split; [vm_compute; find_in|].
  split; vm_compute; reflexivity.
Qed.

(** C10, amended.  With the libraries behaving as documented, a run that
    finds the file its fetch resolves to already stored (as after an earlier
    run with the same URL) keeps that file: the fetch changes no file
    ([nooverwrites] is set) and the stored source is the same after the
    run.  The exported clip is written again at the fixed name
    "downloads/instagram_clip.mp4", replacing what was there, and the run
    returns that name; nothing is versioned. *)
Theorem second_run_keeps_download_rewrites_clip
    (net : string -> world -> result info_dict) (gen : text_generator_t)
    (probe : string -> Q * (Z * Z)) (self : self_t) (url : string)
    (w1 : world) (vp : string) (r2 : pipeline_result) (w2 : world) :
  let E := reference_env net gen probe in
  fst (download_youtube_video E self url w1) = Ok vp ->
  is_Some (fs w1 !! vp) ->
  process_video E self url w1 = (Ok r2, w2) ->
  fs (snd (download_youtube_video E self url w1)) = fs w1 /\
  fs w2 !! vp = fs w1 !! vp /\
  video_path r2 = "downloads/instagram_clip.mp4" /\
  exists c,
    In (CallWriteVideofile c "downloads/instagram_clip.mp4" "libx264" "aac" 30%Z)
       (new_calls w1 w2) /\
    fs w2 !! "downloads/instagram_clip.mp4"
      = Some (NFile (File true (Encoded c "libx264" "aac" 30%Z))).
Proof.
  intros E Hvp Hthere Hrun.
  pose proof (reference_download_keeps net gen probe self url w1 vp Hvp Hthere) as Hkeep.
  destruct (reference_download_name net gen probe self url w1 vp Hvp) as [ext ->].
  destruct (process_video_ok E self url w1 r2 w2 Hrun)
    as (vp' & wa & c & wb & p & Hd & Hg & Hx & ->).
  fold E in Hkeep, Hvp. rewrite Hd in Hkeep, Hvp. cbn [fst snd] in Hkeep, Hvp.
  injection Hvp as ->.
  pose proof (generate_trace self wa) as [Hgc Hgf]. rewrite Hg in Hgc, Hgf.
  cbn [snd] in Hgc, Hgf.
  pose proof (download_trace E self url w1) as Hdc. cbv zeta in Hdc. rewrite Hd in Hdc.
  cbn [fst snd] in Hdc.
  destruct Hdc as [(e & He & _)|(info & Hdc)]; [discriminate He|].
  destruct (reference_export_ok net gen probe self _ 0 wb p w2 Hx)
    as (-> & k & Hfs & Hin).
  split; [rewrite Hd; exact Hkeep|].
  split.
  - rewrite Hfs, lookup_insert_ne by discriminate.
    rewrite makedirs_fs_other by discriminate.
    rewrite Hgf, Hkeep. reflexivity.
  - split; [reflexivity|]. exists k. split.
    + unfold new_calls in Hin |- *.
      destruct (export_trace E self ("downloads/source_video." +:+ (ext +:+ EmptyString)) 0 wb)
        as [(e & He & _)|[(e & He & _)|[(e & f & a & b & He & _)|
            (f & a & b & k' & w' & _ & _ & Hc)]]];
        rewrite Hx in *; try discriminate He.
      cbn [snd] in Hc. rewrite Hc, Hgc, Hdc, <- !app_assoc, drop_app_length.
      rewrite Hc, drop_app_length in Hin.
      apply in_or_app. right. apply in_or_app. right. exact Hin.
    + rewrite Hfs. apply lookup_insert_eq.
Qed.

Lemma second_run_keeps_download_rewrites_clip_witness :
  fs (snd (process_video Demo.env40 Demo.self15 Demo.url Demo.w_after_run))
    !! "downloads/source_video.mp4"
  = fs Demo.w_after_run !! "downloads/source_video.mp4" /\
  video_path (PipelineResult "downloads/instagram_clip.mp4"
                (lit "Create a catchy marketing caption for a viral video: Watch now!"))
  = "downloads/instagram_clip.mp4".
Proof.
  destruct (second_run_keeps_download_rewrites_clip
              Demo.net Demo.gen Demo.probe40 Demo.self15 Demo.url Demo.w_after_run
              "downloads/source_video.mp4"
              (PipelineResult "downloads/instagram_clip.mp4"
                 (lit "Create a catchy marketing caption for a viral video: Watch now!"))
              (snd (process_video Demo.env40 Demo.self15 Demo.url Demo.w_after_run)))
    as (_ & Hsame & Hpath & _).
  - vm_compute. reflexivity.
  - eexists. vm_compute. reflexivity.
  - vm_compute. reflexivity.
  - split; [exact Hsame | exact Hpath].
Defined.

(** * Further properties of the module *)

(** ** The window, for every pair of durations *)

Section Window_general.

Local Open Scope Q_scope.



End Window_general.

(** ** What [strip] removes *)

Lemma lstrip_split (s : text) :
  exists pre, s = pre ++ lstrip s /\ blank pre = true.
Proof.
  induction s as [|c s (pre & Hs & Hb)]; [exists []; split; reflexivity|].
  simpl. destruct (isspace c) eqn:Hc.
  - exists (c :: pre). split; [simpl; congruence|]. simpl. rewrite Hc. exact Hb.
  - exists []. split; reflexivity.
Qed.

Lemma lstrip_head (s : text) (c : N) (r : text) :
  lstrip s = c :: r -> isspace c = false.
Proof.
  induction s as [|x s IH]; simpl; [discriminate|].
  destruct (isspace x) eqn:Hx; [exact IH|].
  intros H. injection H as <- _. exact Hx.
Qed.

Lemma blank_rev (s : text) : blank (rev s) = blank s.
Proof.
  unfold blank. induction s as [|c s IH]; [reflexivity|].
  simpl. rewrite forallb_app, IH. simpl. rewrite andb_true_r. apply andb_comm.
Qed.

Lemma rstrip_split (t : text) :
  exists post, t = rstrip t ++ post /\ blank post = true.
Proof.
  unfold rstrip. destruct (lstrip_split (rev t)) as (pre & Ht & Hb).
  exists (rev pre). split; [|rewrite blank_rev; exact Hb].
  apply (f_equal (@rev N)) in Ht. rewrite rev_involutive, rev_app_distr in Ht.
  exact Ht.
Qed.

Lemma strip_split (s : text) :
  exists pre post, s = pre ++ strip s ++ post /\ blank pre = true /\ blank post = true.
Proof.
  destruct (lstrip_split s) as (pre & Hs & Hpre).
  destruct (rstrip_split (lstrip s)) as (post & Ht & Hpost).
  exists pre, post. split; [|split; assumption].
  unfold strip. rewrite <- Ht. exact Hs.
Qed.

Lemma strip_trimmed (s : text) : trimmed (strip s) = true.
Proof.
  unfold trimmed. apply andb_true_intro. split.
  - destruct (strip s) as [|x r] eqn:Hx; [reflexivity|].
    destruct (rstrip_split (lstrip s)) as (post & Ht & _).
    fold (strip s) in Ht. rewrite Hx in Ht. simpl in Ht.
    rewrite (lstrip_head s x (r ++ post) Ht). reflexivity.
  - unfold strip, rstrip. rewrite rev_involutive.
    destruct (lstrip (rev (lstrip s))) as [|y r] eqn:Hy; [reflexivity|].
    rewrite (lstrip_head _ y r Hy). reflexivity.
Qed.

(** ** The caption that comes back *)

(** X2.  Whatever the text generator does, the caption returned by
    [generate_marketing_caption] neither starts nor ends with a whitespace
    character. *)
Theorem caption_is_trimmed (self : self_t) (w : world) (c : text) :
  fst (generate_marketing_caption self w) = Ok c -> trimmed c = true.
Proof.
  intros Hc.
  destruct (adapter_outcome self w) as [v|e] eqn:Hv.
  - destruct (adapter_text_cases v) as [(d & rest & s & -> & Hd)|Hno].
    + rewrite (generate_on_text self w d rest s Hv Hd) in Hc.
      injection Hc as <-. apply strip_trimmed.
    + rewrite (generate_on_malformed self w v Hv Hno) in Hc.
      injection Hc as <-. reflexivity.
  - rewrite (generate_on_error self w e Hv) in Hc. injection Hc as <-. reflexivity.
Qed.

Lemma caption_is_trimmed_witness :
  trimmed (lit "Create a catchy marketing caption for a viral video: Watch now!") = true.
Proof.
  apply (caption_is_trimmed Demo.self15 Demo.w0). reflexivity.
Defined.

(** X3.  When the text generator answers with a text, the caption is that text
    with a run of whitespace removed at the front and one at the back, and
    nothing else: no character inside the text is dropped or changed. *)
Theorem caption_keeps_inner_text (self : self_t) (w : world)
    (d : list (text * pyval)) (rest : list pyval) (s : text) :
  adapter_outcome self w = Ok (PList (PDict d :: rest)) ->
  dict_get d (lit "generated_text") = Some (PStr s) ->
  exists c pre post,
    fst (generate_marketing_caption self w) = Ok c /\
    s = pre ++ c ++ post /\ blank pre = true /\ blank post = true.
Proof.
  intros Hv Hd. rewrite (generate_on_text self w d rest s Hv Hd).
  destruct (strip_split s) as (pre & post & Hs & Hpre & Hpost).
  exists (strip s), pre, post. repeat split; assumption.
Qed.

Lemma caption_keeps_inner_text_witness :
  exists c pre post,
    fst (generate_marketing_caption Demo.self15 Demo.w0) = Ok c /\
    lit "Create a catchy marketing caption for a viral video: Watch now!  "
      = pre ++ c ++ post /\ blank pre = true /\ blank post = true.
Proof.
  apply (caption_keeps_inner_text Demo.self15 Demo.w0
           [(lit "generated_text",
             PStr (lit "Create a catchy marketing caption for a viral video: Watch now!  "))]
           []);
    reflexivity.
Defined.



(** ** The fetch *)



(** ** Construction and the downloads directory *)

(** X6.  When a regular file named "downloads" is in the way, [__init__] raises
    [FileExistsError] before anything else happens: nothing is logged, the
    model is not loaded, the world is as it was; [main] raises the same; and
    [export_instagram_video] in such a world raises it too, logged once,
    without opening the source. *)
Theorem downloads_blocked_by_file (E : env) (w : world) (f : file) :
  fs w !! "downloads" = Some (NFile f) ->
  exists e,
    exn_class e = "FileExistsError" /\
    (forall clip_duration, init E clip_duration w = (Raise e, w)) /\
    main E w = (Raise e, w) /\
    (forall self video_path start_time,
        let r := export_instagram_video E self video_path start_time w in
        fst r = Raise e /\ new_calls w (snd r) = [] /\ fs (snd r) = fs w /\
        log (snd r) = log w ++ [(ERROR, "Video export failed: " +:+ exn_str e)]).
Proof.
  intros Hf. eexists. split; [|split; [|split]].
  2:{ intros cd. unfold init, bind, os_makedirs. rewrite Hf. reflexivity. }
  - reflexivity.
  - unfold main, init, bind, os_makedirs. rewrite Hf. reflexivity.
  - intros self vp st.
    unfold export_instagram_video, try_except, bind, os_makedirs, logger, raise.
    rewrite Hf. cbn [fst snd fs log calls]. repeat split.
    unfold new_calls. cbn [calls]. apply drop_all.
Qed.

Lemma downloads_blocked_by_file_witness :
  let w := World {["downloads" := NFile (File true (Downloaded "notes"))]} [] [] [] in
  exists e, exn_class e = "FileExistsError" /\ main Demo.env40 w = (Raise e, w).
Proof.
  cbv zeta.
  destruct (downloads_blocked_by_file Demo.env40
              (World {["downloads" := NFile (File true (Downloaded "notes"))]} [] [] [])
              (File true (Downloaded "notes")))
    as (e & Hc & _ & Hm & _).
  - vm_compute. reflexivity.
  - exists e. split; [exact Hc | exact Hm].
Defined.

(** X7.  When no regular file is in the way and the model loads, [__init__]
    returns a generator holding the clip duration given and the loaded
    model; afterwards "downloads" is a directory, every other path is as
    before, nothing has been logged, and the load was the only library
    call. *)
Theorem init_builds_generator (E : env) (clip_duration : Q) (w : world)
    (tg : text_generator_t) :
  (forall f, fs w !! "downloads" <> Some (NFile f)) ->
  load_outcome E w = Ok tg ->
  exists w',
    init E clip_duration w = (Ok (Self clip_duration tg), w') /\
    fs w' !! "downloads" = Some NDir /\
    (forall p, p <> "downloads" -> fs w' !! p = fs w !! p) /\
    log w' = log w /\
    new_calls w w' = [CallPipeline "text-generation" "gpt2"].
Proof.
  unfold load_outcome, init, try_except, bind, call_lib, ret, os_makedirs.
  intros Hno.
  destruct (fs w !! "downloads") as [[|f]|] eqn:Hd.
  - cbn [snd]. intros ->. eexists. split; [reflexivity|]. cbn [fs note log calls].
    split; [exact Hd|]. split; [reflexivity|]. split; [reflexivity|].
    apply new_calls_app. reflexivity.
  - destruct (Hno f eq_refl).
  - cbn [snd]. intros ->. eexists. split; [reflexivity|].
    cbn [fs note log calls set_fs].
    split; [apply lookup_insert_eq|].
    split; [intros p Hp; apply lookup_insert_ne; congruence|].
    split; [reflexivity|]. apply new_calls_app. reflexivity.
Qed.

Lemma init_builds_generator_witness :
  exists w',
    init Demo.env40 15 Demo.w0 = (Ok (Self 15 Demo.gen), w') /\
    fs w' !! "downloads" = Some NDir.
Proof.
  destruct (init_builds_generator Demo.env40 15 Demo.w0 Demo.gen)
    as (w' & Hi & Hd & _).
  - intros f H. vm_compute in H. discriminate H.
  - reflexivity.
  - exists w'. split; [exact Hi | exact Hd].
Defined.

(** ** More on the transcoder *)




(** X9.  [export_instagram_video] changes files only by way of
    [write_videofile]: a run of it that made no such call raised, and left
    every path other than the directory "downloads" as it was, so a clip
    stored by an earlier run is still there. *)
Theorem export_without_write_keeps_files (E : env) (self : self_t) (video_path : string)
    (start_time : Q) (w : world) :
  let r := export_instagram_video E self video_path start_time w in
  (forall c, In c (new_calls w (snd r)) -> is_write c = false) ->
  (exists e, fst r = Raise e /\
             log (snd r) = log w ++ [(ERROR, "Video export failed: " +:+ exn_str e)]) /\
  fs (snd r) = fs (snd (os_makedirs "downloads" w)) /\
  (forall p, p <> "downloads" -> fs (snd r) !! p = fs w !! p).
Proof.
  cbv zeta. intros Hno.
  assert (Hfs : (exists e, fst (export_instagram_video E self video_path start_time w)
                           = Raise e /\
                           log (snd (export_instagram_video E self video_path start_time w))
                           = log w ++ [(ERROR, "Video export failed: " +:+ exn_str e)]) /\
                fs (snd (export_instagram_video E self video_path start_time w))
                = fs (snd (os_makedirs "downloads" w))).
  { revert Hno.
    unfold export_instagram_video, try_except, bind, call_lib, call_lib_fs, ret, raise,
      logger, clip_window.
    destruct (makedirs_calls "downloads" w) as (Hc & Hl & _).
    destruct (os_makedirs "downloads" w) as [[[]|e] w1]; cbn [snd] in Hc, Hl |- *.
    2:{ intros _. split; [exists e; rewrite Hl; split; reflexivity | reflexivity]. }
    destruct (VideoFileClip E video_path _) as [full|e].
    2:{ intros _. split; [exists e; cbn [log note]; rewrite Hl; split; reflexivity
                         | reflexivity]. }
    destruct (subclipped E full _ _ _) as [c|e].
    2:{ intros _. split; [exists e; cbn [log note]; rewrite Hl; split; reflexivity
                         | reflexivity]. }
    destruct (write_videofile E c _ _ _ _ _) as [[[]|e] m];
      (erewrite new_calls_app;
         [|cbn [fst snd calls note set_fs]; rewrite Hc, <- !app_assoc; reflexivity]);
      intros Hno; specialize (Hno _ ltac:(right; right; left; reflexivity));
      discriminate Hno. }
  destruct Hfs as [He Hfs]. split; [exact He|]. split; [exact Hfs|].
  intros p Hp. rewrite Hfs. apply makedirs_fs_other. exact Hp.
Qed.

Lemma export_without_write_keeps_files_witness :
  fs (snd (export_instagram_video Demo.env40 Demo.self15 "downloads/missing.mp4" 0
             Demo.w_after_run)) !! "downloads/instagram_clip.mp4"
  = fs Demo.w_after_run !! "downloads/instagram_clip.mp4".
Proof.
  apply (proj2 (proj2 (export_without_write_keeps_files Demo.env40 Demo.self15
                         "downloads/missing.mp4" 0 Demo.w_after_run
                         ltac:(vm_compute; intros c [<-|[]]; reflexivity)))).
  discriminate.
Defined.

(** ** More on the orchestrator *)

Lemma export_log_stdout (E : env) (self : self_t) (vp : string) (st : Q) (w : world) :
  let r := export_instagram_video E self vp st w in
  stdout (snd r) = stdout w /\
  (forall e, fst r = Raise e ->
     log (snd r) = log w ++ [(ERROR, "Video export failed: " +:+ exn_str e)]) /\
  (forall p, fst r = Ok p -> log (snd r) = log w).
Proof.
  cbv zeta.
  unfold export_instagram_video, try_except, bind, call_lib, call_lib_fs, ret, raise,
    logger, clip_window.
  destruct (makedirs_calls "downloads" w) as (_ & Hl & Hs).
  destruct (os_makedirs "downloads" w) as [[[]|e] w1]; cbn [snd] in Hl, Hs |- *.
  2:{ cbn [fst snd stdout log]. rewrite Hl, Hs. split; [reflexivity|].
      split; [intros e' H; injection H as <-; reflexivity | intros p H; discriminate H]. }
  destruct (VideoFileClip E vp _) as [full|e].
  2:{ cbn [fst snd stdout log note]. rewrite Hl, Hs. split; [reflexivity|].
      split; [intros e' H; injection H as <-; reflexivity | intros p H; discriminate H]. }
  destruct (subclipped E full _ _ _) as [c|e].
  2:{ cbn [fst snd stdout log note]. rewrite Hl, Hs. split; [reflexivity|].
      split; [intros e' H; injection H as <-; reflexivity | intros p H; discriminate H]. }
  destruct (write_videofile E c _ _ _ _ _) as [[[]|e] m];
    cbn [fst snd stdout log note set_fs]; rewrite Hl, Hs; (split; [reflexivity|]).
  - split; [intros e' H; discriminate H | intros p H; reflexivity].
  - split; [intros e' H; injection H as <-; reflexivity | intros p H; discriminate H].
Qed.

Lemma download_log_stdout (E : env) (self : self_t) (url : string) (w : world) :
  let r := download_youtube_video E self url w in
  stdout (snd r) = stdout w /\
  (forall e, fst r = Raise e ->
     log (snd r) = log w ++ [(ERROR, "Video download failed: " +:+ exn_str e)]).
Proof.
  cbv zeta.
  unfold download_youtube_video, try_except, bind, call_lib, call_lib_fs, ret, raise,
    logger.
  destruct (ydl_extract_info E _ _ _ _) as [[info|e] m].
  2:{ split; [reflexivity|]. intros e' H. injection H as <-. reflexivity. }
  destruct (ydl_prepare_filename E _ _ _) as [p|e]; (split; [reflexivity|]).
  - intros e H. discriminate H.
  - intros e' H. injection H as <-. reflexivity.
Qed.

Lemma generate_log_stdout (self : self_t) (w : world) :
  stdout (snd (generate_marketing_caption self w)) = stdout w /\
  exists l, log (snd (generate_marketing_caption self w)) = log w ++ l.
Proof.
  unfold generate_marketing_caption, try_except, bind, call_lib, lift, ret, logger.
  destruct (text_generator self _ _ _ _) as [v|e];
    [|split; [reflexivity | eexists; reflexivity]].
  destruct (subscript_0 v) as [x|e]; [|split; [reflexivity | eexists; reflexivity]].
  destruct (subscript_key x _) as [y|e]; [|split; [reflexivity | eexists; reflexivity]].
  destruct (method_strip y) as [z|e]; split; try reflexivity.
  - exists []. symmetry. apply app_nil_r.
  - eexists. reflexivity.
Qed.

(** X10.  A run of [process_video] that raises has logged the exception twice, as
    its last two records: first the stage that failed ("Video download
    failed" or "Video export failed"), then "Video processing failed", both
    at error level and both with the text of the exception raised. *)
Theorem fatal_errors_are_logged_twice (E : env) (self : self_t) (url : string)
    (w : world) (e : exn) :
  fst (process_video E self url w) = Raise e ->
  exists before stage,
    log (snd (process_video E self url w)) =
      before ++ [(ERROR, stage +:+ exn_str e);
                 (ERROR, "Video processing failed: " +:+ exn_str e)] /\
    (stage = "Video download failed: " \/ stage = "Video export failed: ").
Proof.
  unfold process_video, try_except, bind, ret, raise, logger.
  pose proof (download_log_stdout E self url w) as [_ Hd]. cbv zeta in Hd.
  destruct (download_youtube_video E self url w) as [[vp|e'] w1]; cbn [fst snd] in Hd.
  2:{ cbn [fst snd log]. intros H. injection H as <-.
      exists (log w), "Video download failed: ".
      rewrite (Hd e' eq_refl), <- app_assoc. split; [reflexivity | left; reflexivity]. }
  pose proof (generate_total self w1) as [c Hc].
  destruct (generate_marketing_caption self w1) as [[c'|e'] w2]; [|discriminate Hc].
  pose proof (export_log_stdout E self vp 0 w2) as (_ & Hx & _). cbv zeta in Hx.
  destruct (export_instagram_video E self vp 0 w2) as [[p|e'] w3]; cbn [fst snd] in Hx |- *.
  - intros H. discriminate H.
  - cbn [log]. intros H. injection H as <-.
    exists (log w2), "Video export failed: ".
    rewrite (Hx e' eq_refl), <- app_assoc. split; [reflexivity | right; reflexivity].
Qed.

Lemma fatal_errors_are_logged_twice_witness :
  exists before stage,
    log (snd (process_video Demo.env_net_down Demo.self15 Demo.url Demo.w0)) =
      before ++ [(ERROR, stage +:+ "Unable to download webpage");
                 (ERROR, "Video processing failed: Unable to download webpage")] /\
    (stage = "Video download failed: " \/ stage = "Video export failed: ").
Proof.
  apply (fatal_errors_are_logged_twice Demo.env_net_down Demo.self15 Demo.url Demo.w0
           (Exn "DownloadError" "Unable to download webpage")).
  reflexivity.
Defined.



(** X12.  Whenever [process_video] opens a file with [VideoFileClip], it is the
    path its fetch returned: the export works on the fetched file and on no
    other. *)
Theorem transcoder_opens_fetched_path (E : env) (self : self_t) (url : string)
    (w : world) (p : string) :
  In (CallVideoFileClip p) (new_calls w (snd (process_video E self url w))) ->
  fst (download_youtube_video E self url w) = Ok p.
Proof.
  unfold process_video, try_except, bind, ret, raise, logger.
  pose proof (download_trace E self url w) as Hd. cbv zeta in Hd.
  destruct (download_youtube_video E self url w) as [[vp|e] w1]; cbn [fst snd] in Hd |- *.
  2:{ destruct Hd as [(e' & _ & Hd)|(info & Hd)];
        (erewrite new_calls_app; [|cbn [calls]; exact Hd]);
        intros H; simpl in H; intuition discriminate. }
  destruct Hd as [(e & He & _)|(info & Hd)]; [discriminate He|].
  pose proof (generate_trace self w1) as [Hg _].
  pose proof (generate_total self w1) as [c Hc].
  destruct (generate_marketing_caption self w1) as [[c'|e] w2]; [|discriminate Hc].
  cbn [snd] in Hg.
  pose proof (export_trace E self vp 0 w2) as Hx. cbv zeta in Hx.
  destruct (export_instagram_video E self vp 0 w2) as [[q|e] w3];
    cbn [fst snd calls] in Hx |- *;
    destruct Hx as [(e' & _ & Hx)|[(e' & _ & Hx)|[(e' & f & a & b & _ & Hx)|
                    (f & a & b & k & w' & _ & _ & Hx)]]];
    (erewrite new_calls_app;
       [|cbn [calls]; rewrite Hx, Hg, Hd, <- ?app_assoc; reflexivity]);
    intros H; simpl in H;
    repeat (destruct H as [H|H]; [try discriminate H; injection H as <-; reflexivity|]);
    destruct H.
Qed.

Lemma transcoder_opens_fetched_path_witness :
  fst (download_youtube_video Demo.env40 Demo.self15 Demo.url Demo.w0)
  = Ok "downloads/source_video.mp4".
Proof.
  apply (transcoder_opens_fetched_path Demo.env40 Demo.self15 Demo.url Demo.w0).
  vm_compute. find_in.
Defined.

Lemma process_video_stdout (E : env) (self : self_t) (url : string) (w : world) :
  stdout (snd (process_video E self url w)) = stdout w.
Proof.
  unfold process_video, try_except, bind, ret, raise, logger.
  pose proof (download_log_stdout E self url w) as [Hd _]. cbv zeta in Hd.
  destruct (download_youtube_video E self url w) as [[vp|e] w1];
    cbn [fst snd stdout] in Hd |- *; [|exact Hd].
  pose proof (generate_log_stdout self w1) as [Hg _].
  destruct (generate_marketing_caption self w1) as [[c|e] w2];
    cbn [fst snd stdout] in Hg |- *; [|congruence].
  pose proof (export_log_stdout E self vp 0 w2) as [Hx _]. cbv zeta in Hx.
  destruct (export_instagram_video E self vp 0 w2) as [[p|e] w3]; cbn [fst snd stdout] in Hx |- *;
    congruence.
Qed.

(** ** The entry point *)

(** X13.  Once the generator is built, [main] does not raise: it runs
    [process_video] on the built-in URL and either prints the exported path
    and the caption, in this order, or, when [process_video] raises, prints
    the text of the exception and returns normally. *)
Theorem main_reports_instead_of_raising (E : env) (w : world) (g : self_t) (w1 : world) :
  init E 15 w = (Ok g, w1) ->
  let run := process_video E g "https://youtu.be/TLKxdTmk-zc?si=vHXFEtw68Rg6ZR7X" w1 in
  fst (main E w) = Ok tt /\
  (forall r, fst run = Ok r ->
     stdout (snd (main E w)) =
       stdout w ++ [PrintInstagramVideo (video_path r); PrintMarketingCaption (caption r)]) /\
  (forall e, fst run = Raise e ->
     stdout (snd (main E w)) = stdout w ++ [PrintError (exn_str e)]).
Proof.
  intros Hinit run. subst run.
  assert (Hs : stdout w1 = stdout w).
  { revert Hinit. unfold init, try_except, bind, call_lib, ret, raise, logger.
    destruct (makedirs_calls "downloads" w) as (_ & _ & Hs).
    destruct (os_makedirs "downloads" w) as [[[]|e] w0]; [|discriminate].
    cbn [snd] in Hs.
    destruct (transformers_pipeline E _ _ _) as [tg|e]; [|discriminate].
    intros H. injection H as _ <-. exact Hs. }
  unfold main, bind, try_except. rewrite Hinit.
  pose proof (process_video_stdout E g "https://youtu.be/TLKxdTmk-zc?si=vHXFEtw68Rg6ZR7X" w1)
    as Hp.
  destruct (process_video E g _ w1) as [[r|e] w2]; cbn [fst snd] in Hp |- *.
  - unfold print. cbn [fst snd stdout]. split; [reflexivity|]. split.
    + intros r' H. injection H as <-. rewrite Hp, Hs, <- app_assoc. reflexivity.
    + intros e H. discriminate H.
  - unfold print. cbn [fst snd stdout]. split; [reflexivity|]. split.
    + intros r H. discriminate H.
    + intros e' H. injection H as <-. rewrite Hp, Hs. reflexivity.
Qed.

Lemma main_reports_instead_of_raising_witness :
  fst (main Demo.env_net_down Demo.w0) = Ok tt /\
  stdout (snd (main Demo.env_net_down Demo.w0)) = [PrintError "Unable to download webpage"].
Proof.
  destruct (main_reports_instead_of_raising Demo.env_net_down Demo.w0 Demo.self15
              (snd (init Demo.env_net_down 15 Demo.w0)))
    as (Hok & _ & Herr).
  - vm_compute. reflexivity.
  - split; [exact Hok|].
    apply (Herr (Exn "DownloadError" "Unable to download webpage")).
    vm_compute. reflexivity.
Defined.

(** ** A stored source and another URL *)

(** X14.  With the libraries behaving as documented: when the name the fetch
    resolves to already holds a finished download, a run of [process_video]
    that returns has cut and written its clip from that stored media,
    whatever the URL given and whatever media the network resolved it to. *)
Theorem stored_source_is_reused
    (net : string -> world -> result info_dict) (gen : text_generator_t)
    (probe : string -> Q * (Z * Z)) (self : self_t) (url : string)
    (w : world) (vp old : string) (r : pipeline_result) (w' : world) :
  let E := reference_env net gen probe in
  fst (download_youtube_video E self url w) = Ok vp ->
  fs w !! vp = Some (NFile (File true (Downloaded old))) ->
  process_video E self url w = (Ok r, w') ->
  exists c,
    In (CallWriteVideofile c "downloads/instagram_clip.mp4" "libx264" "aac" 30%Z)
       (new_calls w w') /\
    clip_source c = old /\ size c = snd (probe old) /\
    fs w' !! "downloads/instagram_clip.mp4"
      = Some (NFile (File true (Encoded c "libx264" "aac" 30%Z))).
Proof.
  intros E Hvp Hold Hrun.
  pose proof (reference_download_keeps net gen probe self url w vp Hvp
                ltac:(rewrite Hold; eexists; reflexivity)) as Hkeep.
  destruct (reference_download_name net gen probe self url w vp Hvp) as [ext ->].
  destruct (process_video_ok E self url w r w' Hrun)
    as (vp' & wa & cap & wb & p & Hd & Hg & Hx & ->).
  fold E in Hkeep, Hvp. rewrite Hd in Hkeep, Hvp. cbn [fst snd] in Hkeep, Hvp.
  injection Hvp as ->.
  pose proof (generate_trace self wa) as [Hgc Hgf]. rewrite Hg in Hgc, Hgf.
  cbn [snd] in Hgc, Hgf.
  pose proof (download_trace E self url w) as Hdc. cbv zeta in Hdc. rewrite Hd in Hdc.
  cbn [fst snd] in Hdc.
  destruct Hdc as [(e & He & _)|(info & Hdc)]; [discriminate He|].
  assert (Hsrc : fs (snd (os_makedirs "downloads" wb))
                   !! ("downloads/source_video." +:+ (ext +:+ EmptyString))
                 = Some (NFile (File true (Downloaded old)))).
  { rewrite makedirs_fs_other by discriminate. rewrite Hgf, Hkeep. exact Hold. }
  revert Hx.
  unfold export_instagram_video, try_except, bind, call_lib, call_lib_fs, clip_window,
    E, reference_env, VideoFileClip, subclipped, write_videofile, write_clip, ret,
    raise, logger, open_clip, subclip.
  destruct (makedirs_calls "downloads" wb) as (Hc & _ & _).
  destruct (os_makedirs "downloads" wb) as [[[]|e] w1]; [|discriminate].
  cbn [snd] in Hc, Hsrc |- *. cbn [fs note]. rewrite Hsrc. cbn [duration].
  match goal with
  | |- context [if Qle_bool ?a ?b then Raise _ else _] => destruct (Qle_bool a b)
  end; [discriminate|].
  intros H. injection H as _ <-.
  eexists. split; [|split; [|split]].
  - erewrite new_calls_app;
      [|cbn [calls note set_fs]; rewrite Hc, Hgc, Hdc, <- !app_assoc; reflexivity].
    find_in.
  - reflexivity.
  - reflexivity.
  - cbn [fs set_fs]. apply lookup_insert_eq.
Qed.

Lemma stored_source_is_reused_witness :
  exists c,
    In (CallWriteVideofile c "downloads/instagram_clip.mp4" "libx264" "aac" 30%Z)
       (new_calls Demo.w_after_run
          (snd (process_video Demo.env_changing Demo.self15
                  "https://example.org/another-video" Demo.w_after_run))) /\
    clip_source c = "talk".
Proof.
  destruct (stored_source_is_reused Demo.net_changing Demo.gen Demo.probe40 Demo.self15
              "https://example.org/another-video" Demo.w_after_run
              "downloads/source_video.mp4" "talk"
              (PipelineResult "downloads/instagram_clip.mp4"
                 (lit "Create a catchy marketing caption for a viral video: Watch now!"))
              (snd (process_video Demo.env_changing Demo.self15
                      "https://example.org/another-video" Demo.w_after_run)))
    as (c & Hin & Hsrc & _).
  - vm_compute. reflexivity.
  - vm_compute. reflexivity.
  - vm_compute. reflexivity.
  - exists c. split; [exact Hin | exact Hsrc].
Defined.

Lemma append_empty (s : string) : s +:+ EmptyString = s.
Proof.
  induction s as [|a s IH]; [reflexivity|].
  change (String a (s +:+ EmptyString) = String a s). f_equal. exact IH.
Qed.

(** X15.  With the libraries behaving as documented: when nothing is stored yet
    at the name the fetch resolves to, [download_youtube_video] returns a
    name of the form "downloads/source_video.<ext>", stores there the
    finished download of the media the network resolved the URL to, and
    leaves every other path as it was. *)
Theorem first_download_stores_media
    (net : string -> world -> result info_dict) (gen : text_generator_t)
    (probe : string -> Q * (Z * Z)) (self : self_t) (url : string)
    (w : world) (vp : string) :
  let E := reference_env net gen probe in
  let r := download_youtube_video E self url w in
  fst r = Ok vp ->
  fs w !! vp = None ->
  exists info,
    net url (note (CallExtractInfo url true) w) = Ok info /\
    vp = "downloads/source_video." +:+ info_ext info /\
    fs (snd r) !! vp = Some (NFile (File true (Downloaded (info_media info)))) /\
    (forall p, p <> vp -> fs (snd r) !! p = fs w !! p).
Proof.
  cbv zeta.
  unfold download_youtube_video, try_except, bind, call_lib, call_lib_fs,
    reference_env, ydl_extract_info, ydl_prepare_filename, extract_info, prepare_filename,
    ret, raise, logger.
  destruct (net url _) as [info|e]; [|discriminate].
  cbn [negb nooverwrites outtmpl note fs].
  assert (Hname : fill_ext (os_path_join "downloads" "source_video.%(ext)s") (info_ext info)
                  = "downloads/source_video." +:+ info_ext info).
  { transitivity ("downloads/source_video." +:+ (info_ext info +:+ EmptyString));
      [reflexivity | rewrite append_empty; reflexivity]. }
  rewrite Hname.
  destruct (fs w !! ("downloads/source_video." +:+ info_ext info)) as [n|] eqn:Hn;
    cbn [fst snd fs set_fs]; intros H Hnone;
    assert (Heq : "downloads/source_video." +:+ info_ext info = vp)
      by (injection H as H; rewrite <- H, append_empty; reflexivity);
    subst vp.
  - congruence.
  - exists info. split; [reflexivity|]. split; [reflexivity|].
    split; [apply lookup_insert_eq|].
    intros p Hp. apply lookup_insert_ne. congruence.
Qed.

Lemma first_download_stores_media_witness :
  exists info,
    Demo.net Demo.url (note (CallExtractInfo Demo.url true) Demo.w0) = Ok info /\
    "downloads/source_video.mp4" = "downloads/source_video." +:+ info_ext info /\
    fs (snd (download_youtube_video Demo.env40 Demo.self15 Demo.url Demo.w0))
      !! "downloads/source_video.mp4"
    = Some (NFile (File true (Downloaded (info_media info)))).
Proof.
  destruct (first_download_stores_media Demo.net Demo.gen Demo.probe40 Demo.self15
              Demo.url Demo.w0 "downloads/source_video.mp4")
    as (info & Hnet & Hname & Hfile & _).
  - vm_compute. reflexivity.
  - vm_compute. reflexivity.
  - exists info. split; [exact Hnet|]. split; [exact Hname | exact Hfile].
Defined.
